(** * The chat relay: POST /chat and GET / of server.js

    Two versions of the relay are in the repository.  [Strict] embeds
    src/server.js (array check on [messages], credential check, status
    check, [??] placeholder, [max_tokens] 512).  [Loose] embeds
    src/unnamed/part_000 (truthiness check only, no credential check, no
    status check, [||] placeholder, [max_tokens] 300).

    A handler is a program in a small monad that threads the Express
    response object and a chronological trace of the outside calls
    ([fetch], [console.error]); a thrown JavaScript exception keeps the
    state reached so far, as it does in the runtime. *)

From Stdlib Require Import String Ascii List Bool ZArith QArith Lia DecimalString.
Import ListNotations.
Local Open Scope string_scope.
Local Open Scope Z_scope.

Set Warnings "-register-all".

(** ** JavaScript values reaching the handlers

    Everything a handler inspects comes out of [JSON.parse] (the request
    body, the upstream body) or is [undefined] (a missing property, an
    unparsed body).  A number literal beyond the range of a double, such
    as [1e400], parses to [Infinity] or [-Infinity].  An object is the
    list of its own properties in insertion order, each key once. *)

Inductive jsval : Type :=
| JUndefined
| JNull
| JBool (b : bool)
| JNum (q : Q)
| JInfinity (negative : bool)
| JStr (s : string)
| JArr (xs : list jsval)
| JObj (fields : list (string * jsval)).

(** ToBoolean: [undefined], [null], [false], zero and the empty string
    are falsy (a parsed JSON number is never NaN); the infinities, arrays
    and objects, empty ones included, are truthy. *)
Definition truthy (v : jsval) : bool :=
  match v with
  | JUndefined | JNull => false
  | JBool b => b
  | JNum q => negb (Qnum q =? 0)
  | JInfinity _ => true
  | JStr s => negb (s =? "")%string
  | JArr _ | JObj _ => true
  end.

Definition nullish (v : jsval) : bool :=
  match v with
  | JUndefined | JNull => true
  | _ => false
  end.

Definition Array_isArray (v : jsval) : bool :=
  match v with
  | JArr _ => true
  | _ => false
  end.

(** Property keys: an identifier ([.choices]) or an index ([[0]]). *)
Inductive prop_key : Type :=
| KName (s : string)
| KIndex (n : nat).

Definition key_string (k : prop_key) : string :=
  match k with
  | KName s => s
  | KIndex n => NilEmpty.string_of_uint (Nat.to_uint n)
  end.

Fixpoint lookup_field (k : string) (fields : list (string * jsval)) : option jsval :=
  match fields with
  | [] => None
  | (k', v) :: rest => if (k' =? k)%string then Some v else lookup_field k rest
  end.

(** [v[k]] for a value that is neither [undefined] nor [null].  The
    handlers read the keys [messages], [choices], [0], [message] and
    [content] only; none of them is [length] or lives on a built-in
    prototype, so own data properties decide the result. *)
Definition get_own (v : jsval) (k : prop_key) : jsval :=
  match v with
  | JObj fields =>
      match lookup_field (key_string k) fields with
      | Some x => x
      | None => JUndefined
      end
  | JArr xs =>
      match k with
      | KIndex n => nth n xs JUndefined
      | KName _ => JUndefined
      end
  | JStr s =>
      match k with
      | KIndex n =>
          match String.get n s with
          | Some c => JStr (String c EmptyString)
          | None => JUndefined
          end
      | KName _ => JUndefined
      end
  | _ => JUndefined
  end.

(** Optional chaining [v?.[k]]. *)
Definition opt_chain (v : jsval) (k : prop_key) : jsval :=
  if nullish v then JUndefined else get_own v k.

(** [a ?? b] and [a || b]. *)
Definition coalesce (a b : jsval) : jsval := if nullish a then b else a.
Definition logical_or (a b : jsval) : jsval := if truthy a then a else b.

Arguments truthy v : simpl nomatch.
Arguments nullish v : simpl nomatch.
Arguments Array_isArray v : simpl nomatch.
Arguments get_own v k : simpl nomatch.

(** ** Errors, results and the outside world *)

Record js_error : Type := mkError { name : string; message : string }.

Inductive result (A : Type) : Type :=
| Normal (a : A)
| Throw (e : js_error).
Arguments Normal {A} a.
Arguments Throw {A} e.

(** The text [JSON.stringify] produces for a value; the serialiser is the
    runtime's, the handlers only choose the value. *)
Inductive json_text : Type :=
| JSON_stringify (v : jsval).

Record fetch_request : Type := mkFetch {
  url : string;
  method : string;
  headers : list (string * string);
  body : json_text
}.

(** A settled upstream response.  [text] and [json] are what
    [resp.text()] and [resp.json()] settle to: the body text, and
    [JSON.parse] of it (node-fetch rejects with a [FetchError] that quotes
    the parser when the text is not JSON). *)
Record upstream_response : Type := mkResp {
  status : Z;
  text : result string;
  json : result jsval
}.

(** node-fetch's [ok] getter. *)
Definition ok (r : upstream_response) : bool :=
  (200 <=? status r) && (status r <? 300).

Record runtime : Type := mkRuntime {
  OPENAI_API_KEY : option string;          (* process.env.OPENAI_API_KEY *)
  fetch : fetch_request -> result upstream_response
}.

(** [process.env.X] is a string or [undefined]. *)
Definition env_truthy (v : option string) : bool :=
  match v with
  | Some s => negb (s =? "")%string
  | None => false
  end.

(** [`${v}`] *)
Definition env_to_string (v : option string) : string :=
  match v with
  | Some s => s
  | None => "undefined"
  end.

Arguments env_truthy v : simpl nomatch.
Arguments env_to_string v : simpl nomatch.

Record request : Type := mkRequest { req_body : jsval }.

(** ** The response object and the trace *)

Inductive res_body : Type :=
| BodyJson (v : jsval)      (* res.json(v) *)
| BodyText (s : string).    (* res.send(s) *)

Record http_response : Type := mkHttp { code : Z; payload : res_body }.

Inductive log_arg : Type :=
| LVal (v : jsval)
| LErr (e : js_error).

Inductive event : Type :=
| EFetch (rq : fetch_request)
| ELog (args : list log_arg).

Record state : Type := mkState {
  statusCode : Z;
  sent : option http_response;
  trace : list event
}.

Definition init : state := mkState 200 None [].

Fixpoint fetch_calls (t : list event) : list fetch_request :=
  match t with
  | [] => []
  | EFetch rq :: rest => rq :: fetch_calls rest
  | ELog _ :: rest => fetch_calls rest
  end.

(** ** The monad *)

Definition M (A : Type) : Type := state -> result A * state.

Definition ret {A} (a : A) : M A := fun s => (Normal a, s).

Definition bind {A B} (m : M A) (k : A -> M B) : M B :=
  fun s =>
    match m s with
    | (Normal a, s') => k a s'
    | (Throw e, s') => (Throw e, s')
    end.

Definition throw {A} (e : js_error) : M A := fun s => (Throw e, s).

Definition lift {A} (r : result A) : M A := fun s => (r, s).

Definition try_catch {A} (m : M A) (h : js_error -> M A) : M A :=
  fun s =>
    match m s with
    | (Normal a, s') => (Normal a, s')
    | (Throw e, s') => h e s'
    end.

Declare Scope js_scope.
Delimit Scope js_scope with js.
Notation "x <- m ;; k" := (bind m (fun x => k))
  (at level 61, m at next level, right associativity) : js_scope.
Notation "m ;; k" := (bind m (fun _ => k))
  (at level 61, right associativity) : js_scope.
Local Open Scope js_scope.

(** ** Primitives *)

(** How V8 names the value in a TypeError message. *)
Definition nullish_name (v : jsval) : string :=
  match v with
  | JNull => "null"
  | _ => "undefined"
  end.

(** [const { k } = req.body]: a TypeError on [undefined] and [null]. *)
Definition destructure (v : jsval) (k : string) : M jsval :=
  if nullish v
  then throw (mkError "TypeError"
                ("Cannot destructure property '" ++ k ++ "' of 'req.body' as it is "
                 ++ nullish_name v ++ "."))
  else ret (get_own v (KName k)).

(** [v.k]: a TypeError on [undefined] and [null]. *)
Definition member (v : jsval) (k : string) : M jsval :=
  if nullish v
  then throw (mkError "TypeError"
                ("Cannot read properties of " ++ nullish_name v
                 ++ " (reading '" ++ k ++ "')"))
  else ret (get_own v (KName k)).

Definition res_status (c : Z) : M unit :=
  fun s => (Normal tt, mkState c (sent s) (trace s)).

(** Sending twice is Express's ERR_HTTP_HEADERS_SENT. *)
Definition res_end (b : res_body) : M unit :=
  fun s =>
    match sent s with
    | None => (Normal tt, mkState (statusCode s) (Some (mkHttp (statusCode s) b)) (trace s))
    | Some _ =>
        (Throw (mkError "Error" "Cannot set headers after they are sent to the client"), s)
    end.

Definition res_json (v : jsval) : M unit := res_end (BodyJson v).
Definition res_send (t : string) : M unit := res_end (BodyText t).

Definition console_error (args : list log_arg) : M unit :=
  fun s => (Normal tt, mkState (statusCode s) (sent s) (trace s ++ [ELog args])).

Definition await_fetch (rt : runtime) (rq : fetch_request) : M upstream_response :=
  fun s => (fetch rt rq, mkState (statusCode s) (sent s) (trace s ++ [EFetch rq])).

Definition await_text (r : upstream_response) : M string := lift (text r).
Definition await_json (r : upstream_response) : M jsval := lift (json r).

Definition response_of {A} (m : M A) : option http_response := sent (snd (m init)).
Definition calls_of {A} (m : M A) : list fetch_request := fetch_calls (trace (snd (m init))).
Definition outcome_of {A} (m : M A) : result A := fst (m init).

Definition completions_url : string := "https://api.openai.com/v1/chat/completions".

(** The value of [process.env.PORT || <default>]: the variable's string
    when it is set and not empty, the numeric default otherwise. *)
Inductive port_value : Type :=
| PortNumber (n : Z)
| PortString (s : string).

Definition env_or_default (v : option string) (default : Z) : port_value :=
  match v with
  | Some s => if (s =? "")%string then PortNumber default else PortString s
  | None => PortNumber default
  end.

(** [`${port}`]: an integer prints in decimal, a string as it is. *)
Definition port_text (p : port_value) : string :=
  match p with
  | PortNumber n => NilEmpty.string_of_int (Z.to_int n)
  | PortString s => s
  end.

(** ** src/server.js *)
Module Strict.

Definition get_root (rt : runtime) (req : request) : M unit :=
  res_send "Chatbot backend is running.".

Definition upstream_request (apiKey : option string) (messages : jsval) : fetch_request :=
  mkFetch completions_url "POST"
    [("Content-Type", "application/json");
     ("Authorization", "Bearer " ++ env_to_string apiKey)]
    (JSON_stringify
       (JObj [("model", JStr "gpt-4o-mini");
              ("messages", messages);
              ("max_tokens", JNum (512 # 1))])).

Definition try_block (rt : runtime) (req : request) : M unit :=
  messages <- destructure (req_body req) "messages" ;;
  if negb (truthy messages) || negb (Array_isArray messages) then
    res_status 400 ;;
    res_json (JObj [("error", JStr "Messages array missing")])
  else
    let apiKey := OPENAI_API_KEY rt in
    if negb (env_truthy apiKey) then
      res_status 500 ;;
      res_json (JObj [("error", JStr "Missing OPENAI_API_KEY in environment")])
    else
      resp <- await_fetch rt (upstream_request apiKey messages) ;;
      if negb (ok resp) then
        text <- await_text resp ;;
        console_error [LVal (JStr "OpenAI API error:");
                       LVal (JNum (inject_Z (status resp)));
                       LVal (JStr text)] ;;
        res_status 502 ;;
        res_json (JObj [("error", JStr "OpenAI API error"); ("details", JStr text)])
      else
        data <- await_json resp ;;
        choices <- member data "choices" ;;
        let reply :=
          coalesce
            (opt_chain (opt_chain (opt_chain choices (KIndex 0)) (KName "message"))
                       (KName "content"))
            (JStr "No reply generated") in
        res_json (JObj [("reply", reply)]).

Definition catch_block (err : js_error) : M unit :=
  console_error [LVal (JStr "Server error:"); LErr err] ;;
  res_status 500 ;;
  res_json (JObj [("error", JStr "Server error"); ("details", JStr (message err))]).

Definition post_chat (rt : runtime) (req : request) : M unit :=
  try_catch (try_block rt req) catch_block.

(** [const PORT = process.env.PORT || 10000] and the line the [listen]
    callback prints. *)
Definition PORT (env_PORT : option string) : port_value :=
  env_or_default env_PORT 10000.

Definition listening_line (env_PORT : option string) : string :=
  "Server running on port " ++ port_text (PORT env_PORT).

End Strict.

(** ** src/unnamed/part_000 *)
Module Loose.

Definition get_root (rt : runtime) (req : request) : M unit :=
  res_send "Chatbot backend is running.".

Definition upstream_request (apiKey : option string) (messages : jsval) : fetch_request :=
  mkFetch completions_url "POST"
    [("Content-Type", "application/json");
     ("Authorization", "Bearer " ++ env_to_string apiKey)]
    (JSON_stringify
       (JObj [("model", JStr "gpt-4o-mini");
              ("messages", messages);
              ("max_tokens", JNum (300 # 1))])).

Definition try_block (rt : runtime) (req : request) : M unit :=
  messages <- destructure (req_body req) "messages" ;;
  if negb (truthy messages) then
    res_status 400 ;;
    res_json (JObj [("error", JStr "Messages array missing")])
  else
    response <- await_fetch rt (upstream_request (OPENAI_API_KEY rt) messages) ;;
    data <- await_json response ;;
    let reply :=
      logical_or
        (opt_chain (opt_chain (opt_chain (opt_chain data (KName "choices")) (KIndex 0))
                              (KName "message"))
                   (KName "content"))
        (JStr "No reply") in
    res_json (JObj [("reply", reply)]).

Definition catch_block (error : js_error) : M unit :=
  console_error [LErr error] ;;
  res_status 500 ;;
  res_json (JObj [("error", JStr "Server error"); ("details", JStr (message error))]).

Definition post_chat (rt : runtime) (req : request) : M unit :=
  try_catch (try_block rt req) catch_block.

(** [const port = process.env.PORT || 3000] and the line the [listen]
    callback prints. *)
Definition port (env_PORT : option string) : port_value :=
  env_or_default env_PORT 3000.

Definition listening_line (env_PORT : option string) : string :=
  "Server running on port " ++ port_text (port env_PORT).

End Loose.

(** ** Vocabulary of the statements *)

(** [const { messages } = req.body] binds [m]. *)
Definition has_messages (req : request) (m : jsval) : Prop :=
  nullish (req_body req) = false /\ get_own (req_body req) (KName "messages") = m.

(** The value has no own property [k]. *)
Definition lacks_field (k : string) (v : jsval) : Prop :=
  exists fields, v = JObj fields /\ lookup_field k fields = None.

(** [data.choices[0].message.content], read with plain member access. *)
Definition first_choice_content (data : jsval) : jsval :=
  opt_chain (opt_chain (opt_chain (opt_chain data (KName "choices")) (KIndex 0))
                       (KName "message"))
            (KName "content").

Definition mentions (needle hay : string) : bool :=
  match index 0 needle hay with
  | Some _ => true
  | None => false
  end.

(** Rows of the response table. *)
Definition messages_missing : http_response :=
  mkHttp 400 (BodyJson (JObj [("error", JStr "Messages array missing")])).

Definition missing_credential : http_response :=
  mkHttp 500 (BodyJson (JObj [("error", JStr "Missing OPENAI_API_KEY in environment")])).

Definition upstream_error (details : string) : http_response :=
  mkHttp 502 (BodyJson (JObj [("error", JStr "OpenAI API error"); ("details", JStr details)])).

Definition server_error (details : string) : http_response :=
  mkHttp 500 (BodyJson (JObj [("error", JStr "Server error"); ("details", JStr details)])).

Definition reply_ok (v : jsval) : http_response :=
  mkHttp 200 (BodyJson (JObj [("reply", v)])).

Definition liveness : http_response :=
  mkHttp 200 (BodyText "Chatbot backend is running.").

(** The [console.error] lines of a trace, oldest first. *)
Fixpoint log_lines (t : list event) : list (list log_arg) :=
  match t with
  | [] => []
  | ELog args :: rest => args :: log_lines rest
  | EFetch _ :: rest => log_lines rest
  end.

Definition logs_of {A} (m : M A) : list (list log_arg) := log_lines (trace (snd (m init))).

(** What the caller reads back from the text [JSON.stringify] writes for a
    value: an infinity is written as [null], [undefined] is written as
    [null] inside an array and its property is left out of an object;
    everything else parses back as it was. *)
Fixpoint on_wire (v : jsval) : jsval :=
  match v with
  | JUndefined | JInfinity _ => JNull
  | JArr xs => JArr (map on_wire xs)
  | JObj fields =>
      JObj ((fix props (l : list (string * jsval)) : list (string * jsval) :=
               match l with
               | [] => []
               | (_, JUndefined) :: rest => props rest
               | (k, x) :: rest => (k, on_wire x) :: props rest
               end) fields)
  | _ => v
  end.

(** The status codes the handler of each version sends. *)
Definition strict_codes : list Z := [200; 400; 500; 502].
Definition loose_codes : list Z := [200; 400; 500].

(** ** Sample inputs *)

Definition hello : jsval :=
  JArr [JObj [("role", JStr "user"); ("content", JStr "hi")]].

Definition chat_request (messages : jsval) : request :=
  mkRequest (JObj [("messages", messages)]).

Definition completion (content : jsval) : jsval :=
  JObj [("id", JStr "chatcmpl-1");
        ("choices",
         JArr [JObj [("index", JNum (0 # 1));
                     ("message", JObj [("role", JStr "assistant"); ("content", content)]);
                     ("finish_reason", JStr "stop")]])].

Definition not_json : js_error :=
  mkError "FetchError"
    ("invalid json response body at https://api.openai.com/v1/chat/completions"
     ++ " reason: Unexpected token r in JSON at position 0").

Definition offline : js_error :=
  mkError "FetchError"
    ("request to https://api.openai.com/v1/chat/completions failed,"
     ++ " reason: getaddrinfo ENOTFOUND api.openai.com").

(** An upstream that settles every call the same way. *)
Definition upstream (key : option string) (o : result upstream_response) : runtime :=
  mkRuntime key (fun _ => o).

Definition rate_limited : upstream_response :=
  mkResp 429 (Normal "rate limited") (Throw not_json).

Definition unauthorized : upstream_response :=
  mkResp 401 (Normal "invalid_api_key")
    (Normal (JObj [("error", JObj [("code", JStr "invalid_api_key")])])).

Definition completed (content : jsval) : upstream_response :=
  mkResp 200 (Normal "completion") (Normal (completion content)).

Definition no_choices : upstream_response :=
  mkResp 200 (Normal "usage only") (Normal (JObj [("usage", JObj [])])).

(** ** Running a handler *)

Ltac unfold_js :=
  unfold response_of, calls_of, outcome_of, logs_of,
    Strict.post_chat, Strict.try_block, Strict.catch_block, Strict.get_root,
    Loose.post_chat, Loose.try_block, Loose.catch_block, Loose.get_root,
    try_catch, bind, ret, throw, lift, destructure, member,
    res_status, res_json, res_send, res_end, console_error,
    await_fetch, await_text, await_json, init in *.

Ltac case_run :=
  repeat match goal with
    | |- context [match ?x with _ => _ end] =>
        lazymatch x with
        | context [match _ with _ => _ end] => fail
        | _ => destruct x eqn:?; simpl in *
        end
    end.

Lemma lacks_field_get k v :
  lacks_field k v -> nullish v = false /\ get_own v (KName k) = JUndefined.
Proof.
  intros (fields & -> & Hnone). unfold get_own. simpl. now rewrite Hnone.
Qed.

(** Index 0 on the values [choices] can parse to. *)
Example index_key : key_string (KIndex 0) = "0".
Proof. reflexivity. Qed.

Example index_of_object :
  opt_chain (JObj [("0", JStr "first")]) (KIndex 0) = JStr "first".
Proof. reflexivity. Qed.

Example content_of_completion :
  first_choice_content (completion (JStr "Hello!")) = JStr "Hello!".
Proof. reflexivity. Qed.

Example null_body_strict :
  response_of (Strict.post_chat
                 (upstream (Some "sk-test") (Normal (mkResp 200 (Normal "null") (Normal JNull))))
                 (chat_request hello))
  = Some (server_error "Cannot read properties of null (reading 'choices')").
Proof. reflexivity. Qed.

Example unparsed_body :
  response_of (Strict.post_chat (upstream (Some "sk-test") (Throw offline))
                 (mkRequest JUndefined))
  = Some (server_error
            "Cannot destructure property 'messages' of 'req.body' as it is undefined.").
Proof. reflexivity. Qed.

Example overflowing_content :
  response_of (Strict.post_chat
                 (upstream (Some "sk-test") (Normal (completed (JInfinity false))))
                 (chat_request hello))
  = Some (reply_ok (JInfinity false)) /\
  on_wire (JObj [("reply", JInfinity false)]) = JObj [("reply", JNull)].
Proof. split; reflexivity. Qed.

Example null_body_loose :
  response_of (Loose.post_chat
                 (upstream (Some "sk-test") (Normal (mkResp 200 (Normal "null") (Normal JNull))))
                 (chat_request hello))
  = Some (reply_ok (JStr "No reply")).
Proof. reflexivity. Qed.

(** C2: a body without a [messages] field is answered 400
    [{error: "Messages array missing"}] by both versions, and neither
    calls the upstream. *)
Theorem missing_messages_rejected (rt : runtime) (req : request) :
  lacks_field "messages" (req_body req) ->
  (response_of (Strict.post_chat rt req) = Some messages_missing /\
   calls_of (Strict.post_chat rt req) = []) /\
  (response_of (Loose.post_chat rt req) = Some messages_missing /\
   calls_of (Loose.post_chat rt req) = []).
Proof.
  intros H. apply lacks_field_get in H. destruct H as [Hn Hg].
  unfold_js. rewrite Hn, Hg. simpl. repeat split.
Qed.

Lemma missing_messages_rejected_witness :
  lacks_field "messages" (JObj [("prompt", JStr "hi")]) /\
  response_of (Strict.post_chat (upstream (Some "sk-test") (Throw offline))
                 (mkRequest (JObj [("prompt", JStr "hi")]))) = Some messages_missing /\
  response_of (Loose.post_chat (upstream (Some "sk-test") (Throw offline))
                 (mkRequest (JObj [("prompt", JStr "hi")]))) = Some messages_missing.
Proof.
  assert (H : lacks_field "messages" (JObj [("prompt", JStr "hi")])).
  { exists [("prompt", JStr "hi")]. split; reflexivity. }
  split; [exact H|].
  destruct (missing_messages_rejected (upstream (Some "sk-test") (Throw offline))
              (mkRequest (JObj [("prompt", JStr "hi")])) H) as [[Hs _] [Hl _]].
  split; assumption.
Defined.

(** C1, as amended: with an array [messages] and no credential in the
    environment (unset or empty), server.js answers 500 with an error
    naming OPENAI_API_KEY and calls nothing; part_000 has no credential
    check and performs the upstream call, its Authorization header
    rendering the environment value as it is. *)
Theorem missing_credential_checked (rt : runtime) (req : request) (msgs : list jsval) :
  has_messages req (JArr msgs) ->
  env_truthy (OPENAI_API_KEY rt) = false ->
  (response_of (Strict.post_chat rt req) = Some missing_credential /\
   calls_of (Strict.post_chat rt req) = [] /\
   mentions "OPENAI_API_KEY" "Missing OPENAI_API_KEY in environment" = true) /\
  calls_of (Loose.post_chat rt req) =
    [mkFetch completions_url "POST"
       [("Content-Type", "application/json");
        ("Authorization", "Bearer " ++ env_to_string (OPENAI_API_KEY rt))]
       (JSON_stringify
          (JObj [("model", JStr "gpt-4o-mini");
                 ("messages", JArr msgs);
                 ("max_tokens", JNum (300 # 1))]))].
Proof.
  intros [Hn Hg] Hkey. split.
  - unfold_js. rewrite Hn, Hg. simpl. rewrite Hkey. simpl. repeat split.
  - unfold_js. rewrite Hn, Hg. simpl. case_run; reflexivity.
Qed.

Lemma missing_credential_checked_witness :
  has_messages (chat_request hello) hello /\
  env_truthy None = false /\
  response_of (Strict.post_chat (upstream None (Normal unauthorized)) (chat_request hello))
  = Some missing_credential.
Proof.
  assert (Hm : has_messages (chat_request hello) hello) by (split; reflexivity).
  split; [exact Hm|]. split; [reflexivity|].
  exact (proj1 (proj1 (missing_credential_checked
                         (upstream None (Normal unauthorized)) (chat_request hello)
                         [JObj [("role", JStr "user"); ("content", JStr "hi")]]
                         Hm eq_refl))).
Defined.

(** C1 fails on part_000: without a credential it still calls the
    upstream, with the header [Bearer undefined], and relays whatever
    comes back. *)
Lemma missing_credential_unchecked_in_part_000 :
  has_messages (chat_request hello) hello /\
  env_truthy (OPENAI_API_KEY (upstream None (Normal unauthorized))) = false /\
  calls_of (Loose.post_chat (upstream None (Normal unauthorized)) (chat_request hello)) <> [] /\
  map headers
    (calls_of (Loose.post_chat (upstream None (Normal unauthorized)) (chat_request hello)))
  = [[("Content-Type", "application/json"); ("Authorization", "Bearer undefined")]] /\
  response_of (Loose.post_chat (upstream None (Normal unauthorized)) (chat_request hello))
  = Some (reply_ok (JStr "No reply")) /\
  response_of (Loose.post_chat (upstream None (Normal unauthorized)) (chat_request hello))
  <> Some missing_credential.
Proof.
  repeat split; try reflexivity; vm_compute; discriminate.
Qed.

(** The success path of server.js in one equation. *)
Lemma strict_success (rt : runtime) (req : request) (msgs : list jsval)
      (resp : upstream_response) (data : jsval) :
  has_messages req (JArr msgs) ->
  env_truthy (OPENAI_API_KEY rt) = true ->
  fetch rt (Strict.upstream_request (OPENAI_API_KEY rt) (JArr msgs)) = Normal resp ->
  ok resp = true ->
  json resp = Normal data ->
  nullish data = false ->
  response_of (Strict.post_chat rt req)
  = Some (reply_ok (coalesce (first_choice_content data) (JStr "No reply generated"))).
Proof.
  intros [Hn Hg] Hkey Hfetch Hok Hjson Hdata.
  unfold_js. rewrite Hn, Hg. simpl. rewrite Hkey. simpl.
  rewrite Hfetch, Hok. simpl. rewrite Hjson.
  destruct data; try discriminate Hdata; reflexivity.
Qed.

(** The path of part_000 past its only check. *)
Lemma loose_success (rt : runtime) (req : request) (m : jsval)
      (resp : upstream_response) (data : jsval) :
  has_messages req m ->
  truthy m = true ->
  fetch rt (Loose.upstream_request (OPENAI_API_KEY rt) m) = Normal resp ->
  json resp = Normal data ->
  response_of (Loose.post_chat rt req)
  = Some (reply_ok (logical_or (first_choice_content data) (JStr "No reply"))).
Proof.
  intros [Hn Hg] Hm Hfetch Hjson.
  unfold_js. rewrite Hn, Hg. simpl. rewrite Hm. simpl.
  rewrite Hfetch, Hjson. reflexivity.
Qed.

Lemma loose_parse_failure (rt : runtime) (req : request) (m : jsval)
      (resp : upstream_response) (e : js_error) :
  has_messages req m ->
  truthy m = true ->
  fetch rt (Loose.upstream_request (OPENAI_API_KEY rt) m) = Normal resp ->
  json resp = Throw e ->
  response_of (Loose.post_chat rt req) = Some (server_error (message e)).
Proof.
  intros [Hn Hg] Hm Hfetch Hjson.
  unfold_js. rewrite Hn, Hg. simpl. rewrite Hm. simpl.
  rewrite Hfetch, Hjson. reflexivity.
Qed.

Lemma content_not_nullish (data : jsval) (c : string) :
  first_choice_content data = JStr c -> nullish data = false.
Proof.
  unfold first_choice_content. destruct (nullish data) eqn:Hd; [|reflexivity].
  unfold opt_chain at 4. rewrite Hd. simpl. discriminate.
Qed.

(** C3, as amended: past validation and the credential check, server.js
    answers a non-success upstream status with 502
    [{error: "OpenAI API error", details: t}], [t] being the upstream body
    text ("rate limited" included); part_000 does not look at the status
    and parses the body: a body that is not JSON gives 500
    [{error: "Server error", details: <parser message>}], a JSON body gives
    200 with the reply or the placeholder. *)
Theorem upstream_failure_relayed (rt : runtime) (req : request) (msgs : list jsval) :
  has_messages req (JArr msgs) ->
  env_truthy (OPENAI_API_KEY rt) = true ->
  (forall resp t,
      fetch rt (Strict.upstream_request (OPENAI_API_KEY rt) (JArr msgs)) = Normal resp ->
      ok resp = false ->
      text resp = Normal t ->
      response_of (Strict.post_chat rt req) = Some (upstream_error t)) /\
  (forall resp,
      fetch rt (Loose.upstream_request (OPENAI_API_KEY rt) (JArr msgs)) = Normal resp ->
      (forall e, json resp = Throw e ->
                 response_of (Loose.post_chat rt req) = Some (server_error (message e))) /\
      (forall data, json resp = Normal data ->
                    response_of (Loose.post_chat rt req)
                    = Some (reply_ok (logical_or (first_choice_content data)
                                                 (JStr "No reply"))))).
Proof.
  intros Hm Hkey. split.
  - intros resp t Hfetch Hok Htext. destruct Hm as [Hn Hg].
    unfold_js. rewrite Hn, Hg. simpl. rewrite Hkey. simpl.
    rewrite Hfetch, Hok. simpl. rewrite Htext. reflexivity.
  - intros resp Hfetch. split.
    + intros e He. eapply loose_parse_failure; eauto.
    + intros data Hd. eapply loose_success; eauto.
Qed.

Lemma upstream_failure_relayed_witness :
  has_messages (chat_request hello) hello /\
  env_truthy (Some "sk-test") = true /\
  ok rate_limited = false /\
  response_of (Strict.post_chat (upstream (Some "sk-test") (Normal rate_limited))
                 (chat_request hello))
  = Some (upstream_error "rate limited").
Proof.
  assert (Hm : has_messages (chat_request hello) hello) by (split; reflexivity).
  split; [exact Hm|]. split; [reflexivity|]. split; [reflexivity|].
  exact (proj1 (upstream_failure_relayed
                  (upstream (Some "sk-test") (Normal rate_limited)) (chat_request hello)
                  [JObj [("role", JStr "user"); ("content", JStr "hi")]] Hm eq_refl)
               rate_limited "rate limited" eq_refl eq_refl eq_refl).
Defined.

(** C3 fails on part_000: a 429 with the body "rate limited" is answered
    500 "Server error", the parser's message as details. *)
Lemma upstream_failure_not_relayed_by_part_000 :
  has_messages (chat_request hello) hello /\
  env_truthy (Some "sk-test") = true /\
  fetch (upstream (Some "sk-test") (Normal rate_limited))
        (Loose.upstream_request (Some "sk-test") hello) = Normal rate_limited /\
  ok rate_limited = false /\
  text rate_limited = Normal "rate limited" /\
  response_of (Loose.post_chat (upstream (Some "sk-test") (Normal rate_limited))
                 (chat_request hello))
  = Some (server_error
            ("invalid json response body at https://api.openai.com/v1/chat/completions"
             ++ " reason: Unexpected token r in JSON at position 0")) /\
  response_of (Loose.post_chat (upstream (Some "sk-test") (Normal rate_limited))
                 (chat_request hello))
  <> Some (upstream_error "rate limited").
Proof.
  repeat split; try reflexivity. vm_compute. discriminate.
Qed.

(** C4, as amended: with an array [messages], a configured credential
    and a successful completion whose first choice has the string [c] as
    message content, server.js answers 200 [{reply: c}] for every [c], and
    part_000 does for every non-empty [c]. *)
Theorem completion_relayed (rt : runtime) (req : request) (msgs : list jsval) (c : string) :
  has_messages req (JArr msgs) ->
  env_truthy (OPENAI_API_KEY rt) = true ->
  (forall resp data,
      fetch rt (Strict.upstream_request (OPENAI_API_KEY rt) (JArr msgs)) = Normal resp ->
      ok resp = true ->
      json resp = Normal data ->
      first_choice_content data = JStr c ->
      response_of (Strict.post_chat rt req) = Some (reply_ok (JStr c))) /\
  (forall resp data,
      fetch rt (Loose.upstream_request (OPENAI_API_KEY rt) (JArr msgs)) = Normal resp ->
      ok resp = true ->
      json resp = Normal data ->
      first_choice_content data = JStr c ->
      c <> "" ->
      response_of (Loose.post_chat rt req) = Some (reply_ok (JStr c))).
Proof.
  intros Hm Hkey. split.
  - intros resp data Hfetch Hok Hjson Hc.
    rewrite (strict_success rt req msgs resp data Hm Hkey Hfetch Hok Hjson
               (content_not_nullish data c Hc)).
    now rewrite Hc.
  - intros resp data Hfetch _ Hjson Hc Hne.
    rewrite (loose_success rt req (JArr msgs) resp data Hm eq_refl Hfetch Hjson).
    rewrite Hc. unfold logical_or. simpl.
    destruct (String.eqb_spec c ""); [contradiction | reflexivity].
Qed.

Lemma completion_relayed_witness :
  has_messages (chat_request hello) hello /\
  env_truthy (Some "sk-test") = true /\
  first_choice_content (completion (JStr "Hello!")) = JStr "Hello!" /\
  response_of (Strict.post_chat (upstream (Some "sk-test") (Normal (completed (JStr "Hello!"))))
                 (chat_request hello))
  = Some (reply_ok (JStr "Hello!")) /\
  response_of (Loose.post_chat (upstream (Some "sk-test") (Normal (completed (JStr "Hello!"))))
                 (chat_request hello))
  = Some (reply_ok (JStr "Hello!")).
Proof.
  assert (Hm : has_messages (chat_request hello) hello) by (split; reflexivity).
  split; [exact Hm|]. split; [reflexivity|]. split; [reflexivity|].
  destruct (completion_relayed
              (upstream (Some "sk-test") (Normal (completed (JStr "Hello!"))))
              (chat_request hello)
              [JObj [("role", JStr "user"); ("content", JStr "hi")]]
              "Hello!" Hm eq_refl) as [Hs Hl].
  split.
  - exact (Hs (completed (JStr "Hello!")) (completion (JStr "Hello!"))
              eq_refl eq_refl eq_refl eq_refl).
  - refine (Hl (completed (JStr "Hello!")) (completion (JStr "Hello!"))
               eq_refl eq_refl eq_refl eq_refl _).
    discriminate.
Defined.

(** C4 fails on part_000 at the empty content: the reply is the
    placeholder, not the content. *)
Lemma empty_completion_not_relayed_by_part_000 :
  has_messages (chat_request hello) hello /\
  env_truthy (Some "sk-test") = true /\
  fetch (upstream (Some "sk-test") (Normal (completed (JStr ""))))
        (Loose.upstream_request (Some "sk-test") hello) = Normal (completed (JStr "")) /\
  ok (completed (JStr "")) = true /\
  json (completed (JStr "")) = Normal (completion (JStr "")) /\
  first_choice_content (completion (JStr "")) = JStr "" /\
  response_of (Loose.post_chat (upstream (Some "sk-test") (Normal (completed (JStr ""))))
                 (chat_request hello))
  <> Some (reply_ok (JStr "")).
Proof.
  repeat split; try reflexivity. vm_compute. discriminate.
Qed.

(** C5: every upstream call of a POST /chat run goes to the completions
    endpoint with method POST, the JSON content type, the Authorization
    header [Bearer <credential>], and the body
    [JSON.stringify({model: "gpt-4o-mini", messages, max_tokens})] whose
    [messages] is the caller's value as received and whose [max_tokens]
    is 512 in server.js and 300 in part_000; and that call is made, once,
    by server.js on every array [messages] with a credential set, and by
    part_000 on every truthy [messages]. *)
Theorem upstream_request_shape (rt : runtime) (req : request) (rq : fetch_request) :
  (In rq (calls_of (Strict.post_chat rt req)) ->
   exists msgs k,
     has_messages req (JArr msgs) /\
     OPENAI_API_KEY rt = Some k /\
     rq = mkFetch "https://api.openai.com/v1/chat/completions" "POST"
            [("Content-Type", "application/json"); ("Authorization", "Bearer " ++ k)]
            (JSON_stringify
               (JObj [("model", JStr "gpt-4o-mini");
                      ("messages", JArr msgs);
                      ("max_tokens", JNum (512 # 1))]))) /\
  (In rq (calls_of (Loose.post_chat rt req)) ->
   exists m,
     has_messages req m /\
     rq = mkFetch "https://api.openai.com/v1/chat/completions" "POST"
            [("Content-Type", "application/json");
             ("Authorization", "Bearer " ++ env_to_string (OPENAI_API_KEY rt))]
            (JSON_stringify
               (JObj [("model", JStr "gpt-4o-mini");
                      ("messages", m);
                      ("max_tokens", JNum (300 # 1))]))) /\
  (forall msgs k,
      has_messages req (JArr msgs) ->
      OPENAI_API_KEY rt = Some k ->
      k <> "" ->
      calls_of (Strict.post_chat rt req)
      = [mkFetch "https://api.openai.com/v1/chat/completions" "POST"
           [("Content-Type", "application/json"); ("Authorization", "Bearer " ++ k)]
           (JSON_stringify
              (JObj [("model", JStr "gpt-4o-mini");
                     ("messages", JArr msgs);
                     ("max_tokens", JNum (512 # 1))]))]) /\
  (forall m k,
      has_messages req m ->
      truthy m = true ->
      OPENAI_API_KEY rt = Some k ->
      calls_of (Loose.post_chat rt req)
      = [mkFetch "https://api.openai.com/v1/chat/completions" "POST"
           [("Content-Type", "application/json"); ("Authorization", "Bearer " ++ k)]
           (JSON_stringify
              (JObj [("model", JStr "gpt-4o-mini");
                     ("messages", m);
                     ("max_tokens", JNum (300 # 1))]))]).
Proof.
  split; [|split; [|split]].
  - unfold has_messages. unfold_js.
    destruct (nullish (req_body req)) eqn:Hn; simpl; [intros []|].
    destruct (get_own (req_body req) (KName "messages")) eqn:Hg;
      simpl; rewrite ?orb_true_r; simpl; try (intros []; fail).
    destruct (OPENAI_API_KEY rt) as [k|] eqn:Hk; simpl; [|intros []].
    destruct (k =? "")%string eqn:Hempty; simpl; [intros []|].
    intros Hin. exists xs, k. repeat split.
    revert Hin. case_run; simpl; intros [<- | []]; reflexivity.
  - unfold has_messages. unfold_js.
    destruct (nullish (req_body req)) eqn:Hn; simpl; [intros []|].
    destruct (truthy (get_own (req_body req) (KName "messages"))) eqn:Ht;
      simpl; [|intros []].
    intros Hin. exists (get_own (req_body req) (KName "messages")). repeat split.
    revert Hin. case_run; simpl; intros [<- | []]; reflexivity.
  - intros msgs k [Hn Hg] Hk Hne.
    unfold_js. rewrite Hn, Hg. simpl. rewrite Hk. simpl.
    destruct (String.eqb_spec k ""); [contradiction|]. simpl.
    case_run; reflexivity.
  - intros m k [Hn Hg] Ht Hk.
    unfold_js. rewrite Hn, Hg. simpl. rewrite Ht, Hk. simpl.
    case_run; reflexivity.
Qed.

Lemma upstream_request_shape_witness :
  has_messages (chat_request hello) hello /\
  truthy hello = true /\
  calls_of (Strict.post_chat (upstream (Some "sk-test") (Normal (completed (JStr "Hello!"))))
              (chat_request hello))
  = [mkFetch "https://api.openai.com/v1/chat/completions" "POST"
       [("Content-Type", "application/json"); ("Authorization", "Bearer sk-test")]
       (JSON_stringify
          (JObj [("model", JStr "gpt-4o-mini");
                 ("messages", hello);
                 ("max_tokens", JNum (512 # 1))]))] /\
  calls_of (Loose.post_chat (upstream (Some "sk-test") (Normal (completed (JStr "Hello!"))))
              (chat_request hello))
  = [mkFetch "https://api.openai.com/v1/chat/completions" "POST"
       [("Content-Type", "application/json"); ("Authorization", "Bearer sk-test")]
       (JSON_stringify
          (JObj [("model", JStr "gpt-4o-mini");
                 ("messages", hello);
                 ("max_tokens", JNum (300 # 1))]))] /\
  (exists m,
      has_messages (chat_request hello) m /\
      Loose.upstream_request (Some "sk-test") hello
      = mkFetch "https://api.openai.com/v1/chat/completions" "POST"
          [("Content-Type", "application/json");
           ("Authorization", "Bearer " ++ env_to_string (Some "sk-test"))]
          (JSON_stringify
             (JObj [("model", JStr "gpt-4o-mini");
                    ("messages", m);
                    ("max_tokens", JNum (300 # 1))]))) /\
  (exists msgs k,
      has_messages (chat_request hello) (JArr msgs) /\
      OPENAI_API_KEY (upstream (Some "sk-test") (Normal (completed (JStr "Hello!")))) = Some k /\
      Strict.upstream_request (Some "sk-test") hello
      = mkFetch "https://api.openai.com/v1/chat/completions" "POST"
          [("Content-Type", "application/json"); ("Authorization", "Bearer " ++ k)]
          (JSON_stringify
             (JObj [("model", JStr "gpt-4o-mini");
                    ("messages", JArr msgs);
                    ("max_tokens", JNum (512 # 1))]))).
Proof.
  assert (Hm : has_messages (chat_request hello) hello) by (split; reflexivity).
  assert (Hne : "sk-test" <> "") by discriminate.
  split; [exact Hm|]. split; [reflexivity|].
  split; [|split; [|split]].
  - exact (proj1 (proj2 (proj2 (upstream_request_shape
                                  (upstream (Some "sk-test")
                                     (Normal (completed (JStr "Hello!"))))
                                  (chat_request hello)
                                  (Strict.upstream_request (Some "sk-test") hello))))
                 [JObj [("role", JStr "user"); ("content", JStr "hi")]] "sk-test"
                 Hm eq_refl Hne).
  - exact (proj2 (proj2 (proj2 (upstream_request_shape
                                  (upstream (Some "sk-test")
                                     (Normal (completed (JStr "Hello!"))))
                                  (chat_request hello)
                                  (Loose.upstream_request (Some "sk-test") hello))))
                 hello "sk-test" Hm eq_refl eq_refl).
  - apply (proj1 (proj2 (upstream_request_shape
                           (upstream (Some "sk-test") (Normal (completed (JStr "Hello!"))))
                           (chat_request hello)
                           (Loose.upstream_request (Some "sk-test") hello)))).
    left. reflexivity.
  - apply (proj1 (upstream_request_shape
                    (upstream (Some "sk-test") (Normal (completed (JStr "Hello!"))))
                    (chat_request hello)
                    (Strict.upstream_request (Some "sk-test") hello))).
    left. reflexivity.
Defined.

Lemma lacks_choices_content (data : jsval) :
  lacks_field "choices" data ->
  nullish data = false /\ first_choice_content data = JUndefined.
Proof.
  intros H. destruct (lacks_field_get "choices" data H) as [Hn Hg].
  split; [exact Hn|].
  unfold first_choice_content. unfold opt_chain at 4. rewrite Hn, Hg. reflexivity.
Qed.

(** C6: a successful upstream response whose parsed body is an object
    without [choices] is answered 200 [{reply: "No reply generated"}] by
    server.js and 200 [{reply: "No reply"}] by part_000. *)
Theorem placeholder_without_choices (rt : runtime) (req : request) (msgs : list jsval)
        (data : jsval) :
  has_messages req (JArr msgs) ->
  env_truthy (OPENAI_API_KEY rt) = true ->
  lacks_field "choices" data ->
  (forall resp,
      fetch rt (Strict.upstream_request (OPENAI_API_KEY rt) (JArr msgs)) = Normal resp ->
      ok resp = true ->
      json resp = Normal data ->
      response_of (Strict.post_chat rt req) = Some (reply_ok (JStr "No reply generated"))) /\
  (forall resp,
      fetch rt (Loose.upstream_request (OPENAI_API_KEY rt) (JArr msgs)) = Normal resp ->
      ok resp = true ->
      json resp = Normal data ->
      response_of (Loose.post_chat rt req) = Some (reply_ok (JStr "No reply"))).
Proof.
  intros Hm Hkey Hlacks. destruct (lacks_choices_content data Hlacks) as [Hn Hc]. split.
  - intros resp Hfetch Hok Hjson.
    rewrite (strict_success rt req msgs resp data Hm Hkey Hfetch Hok Hjson Hn).
    now rewrite Hc.
  - intros resp Hfetch _ Hjson.
    rewrite (loose_success rt req (JArr msgs) resp data Hm eq_refl Hfetch Hjson).
    now rewrite Hc.
Qed.

Lemma placeholder_without_choices_witness :
  has_messages (chat_request hello) hello /\
  lacks_field "choices" (JObj [("usage", JObj [])]) /\
  response_of (Strict.post_chat (upstream (Some "sk-test") (Normal no_choices))
                 (chat_request hello))
  = Some (reply_ok (JStr "No reply generated")) /\
  response_of (Loose.post_chat (upstream (Some "sk-test") (Normal no_choices))
                 (chat_request hello))
  = Some (reply_ok (JStr "No reply")).
Proof.
  assert (Hm : has_messages (chat_request hello) hello) by (split; reflexivity).
  assert (Hl : lacks_field "choices" (JObj [("usage", JObj [])])).
  { exists [("usage", JObj [])]. split; reflexivity. }
  split; [exact Hm|]. split; [exact Hl|].
  destruct (placeholder_without_choices
              (upstream (Some "sk-test") (Normal no_choices)) (chat_request hello)
              [JObj [("role", JStr "user"); ("content", JStr "hi")]]
              (JObj [("usage", JObj [])]) Hm eq_refl Hl) as [Hs Hlo].
  split.
  - exact (Hs no_choices eq_refl eq_refl eq_refl).
  - exact (Hlo no_choices eq_refl eq_refl eq_refl).
Defined.

(** C7: no exception leaves a POST /chat handler, a response is always
    sent, and whenever the [try] block throws [e] (a body that cannot be
    destructured, a rejected [fetch], a body that cannot be read or
    parsed, a property read on [null]) the response is 500
    [{error: "Server error", details: e.message}]; in both versions. *)
Theorem exceptions_answered_500 (rt : runtime) (req : request) :
  (outcome_of (Strict.post_chat rt req) = Normal tt /\
   (exists r, response_of (Strict.post_chat rt req) = Some r) /\
   (forall e, outcome_of (Strict.try_block rt req) = Throw e ->
              response_of (Strict.post_chat rt req) = Some (server_error (message e)))) /\
  (outcome_of (Loose.post_chat rt req) = Normal tt /\
   (exists r, response_of (Loose.post_chat rt req) = Some r) /\
   (forall e, outcome_of (Loose.try_block rt req) = Throw e ->
              response_of (Loose.post_chat rt req) = Some (server_error (message e)))).
Proof.
  split.
  - unfold_js. case_run; simpl;
      repeat split; eauto; try discriminate; intros ? [= <-]; reflexivity.
  - unfold_js. case_run; simpl;
      repeat split; eauto; try discriminate; intros ? [= <-]; reflexivity.
Qed.

Lemma exceptions_answered_500_witness :
  outcome_of (Strict.try_block (upstream (Some "sk-test") (Throw offline)) (chat_request hello))
  = Throw offline /\
  response_of (Strict.post_chat (upstream (Some "sk-test") (Throw offline)) (chat_request hello))
  = Some (server_error
            ("request to https://api.openai.com/v1/chat/completions failed,"
             ++ " reason: getaddrinfo ENOTFOUND api.openai.com")) /\
  outcome_of (Loose.try_block (upstream (Some "sk-test") (Normal rate_limited))
                (chat_request hello))
  = Throw not_json /\
  response_of (Loose.post_chat (upstream (Some "sk-test") (Normal rate_limited))
                 (chat_request hello))
  = Some (server_error
            ("invalid json response body at https://api.openai.com/v1/chat/completions"
             ++ " reason: Unexpected token r in JSON at position 0")).
Proof.
  split; [reflexivity|]. split.
  - exact (proj2 (proj2 (proj1 (exceptions_answered_500
                                  (upstream (Some "sk-test") (Throw offline))
                                  (chat_request hello))))
                 offline eq_refl).
  - split; [reflexivity|].
    exact (proj2 (proj2 (proj2 (exceptions_answered_500
                                  (upstream (Some "sk-test") (Normal rate_limited))
                                  (chat_request hello))))
                 not_json eq_refl).
Defined.

(** C8: on a [messages] value that is truthy but not an array, server.js
    answers 400 without an upstream call while part_000 forwards the
    value upstream; on an absent or falsy value both answer 400 and
    neither calls the upstream. *)
Theorem validation_strictness (rt : runtime) (req : request) (m : jsval) :
  has_messages req m ->
  (truthy m = true -> Array_isArray m = false ->
   (response_of (Strict.post_chat rt req) = Some messages_missing /\
    calls_of (Strict.post_chat rt req) = []) /\
   calls_of (Loose.post_chat rt req) =
     [mkFetch "https://api.openai.com/v1/chat/completions" "POST"
        [("Content-Type", "application/json");
         ("Authorization", "Bearer " ++ env_to_string (OPENAI_API_KEY rt))]
        (JSON_stringify
           (JObj [("model", JStr "gpt-4o-mini");
                  ("messages", m);
                  ("max_tokens", JNum (300 # 1))]))] /\
   response_of (Loose.post_chat rt req) <> Some messages_missing) /\
  (truthy m = false ->
   (response_of (Strict.post_chat rt req) = Some messages_missing /\
    calls_of (Strict.post_chat rt req) = []) /\
   (response_of (Loose.post_chat rt req) = Some messages_missing /\
    calls_of (Loose.post_chat rt req) = [])).
Proof.
  intros [Hn Hg]. split.
  - intros Ht Ha. split; [|split].
    + unfold_js. rewrite Hn, Hg. simpl. rewrite Ht, Ha. simpl. split; reflexivity.
    + unfold_js. rewrite Hn, Hg. simpl. rewrite Ht. simpl. case_run; reflexivity.
    + unfold_js. rewrite Hn, Hg. simpl. rewrite Ht. simpl. case_run; discriminate.
  - intros Ht. split.
    + unfold_js. rewrite Hn, Hg. simpl. rewrite Ht. simpl. split; reflexivity.
    + unfold_js. rewrite Hn, Hg. simpl. rewrite Ht. simpl. split; reflexivity.
Qed.

Lemma validation_strictness_witness :
  has_messages (chat_request (JStr "hi")) (JStr "hi") /\
  truthy (JStr "hi") = true /\
  Array_isArray (JStr "hi") = false /\
  response_of (Strict.post_chat (upstream (Some "sk-test") (Normal (completed (JStr "Hello!"))))
                 (chat_request (JStr "hi")))
  = Some messages_missing /\
  response_of (Loose.post_chat (upstream (Some "sk-test") (Normal (completed (JStr "Hello!"))))
                 (chat_request (JStr "hi")))
  <> Some messages_missing /\
  has_messages (chat_request (JStr "")) (JStr "") /\
  truthy (JStr "") = false /\
  response_of (Loose.post_chat (upstream (Some "sk-test") (Normal (completed (JStr "Hello!"))))
                 (chat_request (JStr "")))
  = Some messages_missing.
Proof.
  assert (H1 : has_messages (chat_request (JStr "hi")) (JStr "hi")) by (split; reflexivity).
  assert (H2 : has_messages (chat_request (JStr "")) (JStr "")) by (split; reflexivity).
  destruct (proj1 (validation_strictness
                     (upstream (Some "sk-test") (Normal (completed (JStr "Hello!"))))
                     (chat_request (JStr "hi")) (JStr "hi") H1) eq_refl eq_refl)
    as [[Hs _] [_ Hl]].
  destruct (proj2 (validation_strictness
                     (upstream (Some "sk-test") (Normal (completed (JStr "Hello!"))))
                     (chat_request (JStr "")) (JStr "") H2) eq_refl)
    as [_ [Hl' _]].
  repeat split; try assumption; reflexivity.
Defined.

(** C9: the response of POST /chat is decided by the request, by whether
    a credential is configured, and by how the upstream call settles: two
    runs that differ only in the credential's value send the same
    response, in both versions; and GET / answers 200 with the liveness
    text whatever the environment holds. *)
Theorem credential_not_echoed (k1 k2 : option string) (o : result upstream_response)
        (req : request) :
  env_truthy k1 = env_truthy k2 ->
  (response_of (Strict.post_chat (upstream k1 o) req)
   = response_of (Strict.post_chat (upstream k2 o) req) /\
   response_of (Loose.post_chat (upstream k1 o) req)
   = response_of (Loose.post_chat (upstream k2 o) req)) /\
  (forall rt req', response_of (Strict.get_root rt req') = Some liveness /\
                   response_of (Loose.get_root rt req') = Some liveness).
Proof.
  intros Hk. split; [split|].
  - unfold_js. simpl. rewrite Hk. case_run; reflexivity.
  - unfold_js. simpl. case_run; reflexivity.
  - intros rt req'. split; reflexivity.
Qed.

Lemma credential_not_echoed_witness :
  env_truthy (Some "sk-live-1") = env_truthy (Some "sk-live-2") /\
  response_of (Strict.post_chat (upstream (Some "sk-live-1") (Normal rate_limited))
                 (chat_request hello))
  = response_of (Strict.post_chat (upstream (Some "sk-live-2") (Normal rate_limited))
                   (chat_request hello)).
Proof.
  split; [reflexivity|].
  exact (proj1 (proj1 (credential_not_echoed (Some "sk-live-1") (Some "sk-live-2")
                         (Normal rate_limited) (chat_request hello) eq_refl))).
Defined.

(** C10: a successful completion whose first choice has the empty string
    as message content is answered 200 [{reply: ""}] by server.js ([??])
    and 200 [{reply: "No reply"}] by part_000 ([||]). *)
Theorem empty_content_diverges (rt : runtime) (req : request) (msgs : list jsval)
        (data : jsval) :
  has_messages req (JArr msgs) ->
  env_truthy (OPENAI_API_KEY rt) = true ->
  first_choice_content data = JStr "" ->
  (forall resp,
      fetch rt (Strict.upstream_request (OPENAI_API_KEY rt) (JArr msgs)) = Normal resp ->
      ok resp = true ->
      json resp = Normal data ->
      response_of (Strict.post_chat rt req) = Some (reply_ok (JStr ""))) /\
  (forall resp,
      fetch rt (Loose.upstream_request (OPENAI_API_KEY rt) (JArr msgs)) = Normal resp ->
      ok resp = true ->
      json resp = Normal data ->
      response_of (Loose.post_chat rt req) = Some (reply_ok (JStr "No reply"))).
Proof.
  intros Hm Hkey Hc. split.
  - intros resp Hfetch Hok Hjson.
    rewrite (strict_success rt req msgs resp data Hm Hkey Hfetch Hok Hjson
               (content_not_nullish data "" Hc)).
    now rewrite Hc.
  - intros resp Hfetch _ Hjson.
    rewrite (loose_success rt req (JArr msgs) resp data Hm eq_refl Hfetch Hjson).
    now rewrite Hc.
Qed.

Lemma empty_content_diverges_witness :
  has_messages (chat_request hello) hello /\
  first_choice_content (completion (JStr "")) = JStr "" /\
  response_of (Strict.post_chat (upstream (Some "sk-test") (Normal (completed (JStr ""))))
                 (chat_request hello))
  = Some (reply_ok (JStr "")) /\
  response_of (Loose.post_chat (upstream (Some "sk-test") (Normal (completed (JStr ""))))
                 (chat_request hello))
  = Some (reply_ok (JStr "No reply")).
Proof.
  assert (Hm : has_messages (chat_request hello) hello) by (split; reflexivity).
  split; [exact Hm|]. split; [reflexivity|].
  destruct (empty_content_diverges
              (upstream (Some "sk-test") (Normal (completed (JStr ""))))
              (chat_request hello)
              [JObj [("role", JStr "user"); ("content", JStr "hi")]]
              (completion (JStr "")) Hm eq_refl eq_refl) as [Hs Hl].
  split.
  - exact (Hs (completed (JStr "")) eq_refl eq_refl eq_refl).
  - exact (Hl (completed (JStr "")) eq_refl eq_refl eq_refl).
Defined.

(** ** Beyond the response table: calls, logs, codes and start-up *)

(** X1: a POST /chat run calls the upstream at most once; server.js
    calls it exactly when [messages] is an array and the credential is
    set and not empty, part_000 exactly when [messages] is truthy. *)
Theorem upstream_called_once (rt : runtime) (req : request) :
  ((length (calls_of (Strict.post_chat rt req)) <= 1)%nat /\
   (calls_of (Strict.post_chat rt req) <> [] <->
    exists msgs, has_messages req (JArr msgs) /\ env_truthy (OPENAI_API_KEY rt) = true)) /\
  ((length (calls_of (Loose.post_chat rt req)) <= 1)%nat /\
   (calls_of (Loose.post_chat rt req) <> [] <->
    exists m, has_messages req m /\ truthy m = true)).
Proof.
  unfold has_messages. split.
  - unfold_js.
    destruct (nullish (req_body req)) eqn:Hn; simpl.
    { split; [lia|]. split; [congruence|]. intros (msgs & [H _] & _). discriminate. }
    destruct (get_own (req_body req) (KName "messages")) eqn:Hg;
      simpl; rewrite ?orb_true_r; simpl;
      try (split; [lia|]; split; [congruence|]; intros (msgs & [_ H] & _); discriminate).
    destruct (env_truthy (OPENAI_API_KEY rt)) eqn:Hk; simpl.
    + case_run; simpl; (split; [lia|]); (split; [intros _; eauto | discriminate]).
    + split; [lia|]. split; [congruence|]. intros (msgs & _ & H). discriminate.
  - unfold_js.
    destruct (nullish (req_body req)) eqn:Hn; simpl.
    { split; [lia|]. split; [congruence|]. intros (m & [H _] & _). discriminate. }
    destruct (truthy (get_own (req_body req) (KName "messages"))) eqn:Ht; simpl.
    + case_run; simpl; (split; [lia|]); (split; [intros _; eauto | discriminate]).
    + split; [lia|]. split; [congruence|]. intros (m & [_ <-] & H). congruence.
Qed.

Lemma upstream_called_once_witness :
  has_messages (chat_request (JArr [])) (JArr []) /\
  calls_of (Strict.post_chat (upstream (Some "sk-test") (Throw offline)) (chat_request (JArr [])))
  <> [] /\
  calls_of (Loose.post_chat (upstream None (Throw offline)) (chat_request (JArr [])))
  <> [].
Proof.
  assert (Hm : has_messages (chat_request (JArr [])) (JArr [])) by (split; reflexivity).
  split; [exact Hm|]. split.
  - apply (proj2 (proj2 (proj1 (upstream_called_once
                                  (upstream (Some "sk-test") (Throw offline))
                                  (chat_request (JArr [])))))).
    exists []. split; [exact Hm | reflexivity].
  - apply (proj2 (proj2 (proj2 (upstream_called_once
                                  (upstream None (Throw offline))
                                  (chat_request (JArr [])))))).
    exists (JArr []). split; [exact Hm | reflexivity].
Defined.

(** X2: a POST /chat run writes at most one [console.error] line;
    server.js writes one exactly when it answers 502 "OpenAI API error" or
    500 "Server error", part_000 exactly when it answers 500
    "Server error".  Validation and missing-credential answers are not
    logged. *)
Theorem errors_logged (rt : runtime) (req : request) :
  ((length (logs_of (Strict.post_chat rt req)) <= 1)%nat /\
   (logs_of (Strict.post_chat rt req) <> [] <->
    (exists t, response_of (Strict.post_chat rt req) = Some (upstream_error t)) \/
    (exists d, response_of (Strict.post_chat rt req) = Some (server_error d)))) /\
  ((length (logs_of (Loose.post_chat rt req)) <= 1)%nat /\
   (logs_of (Loose.post_chat rt req) <> [] <->
    exists d, response_of (Loose.post_chat rt req) = Some (server_error d))).
Proof.
  split.
  - unfold_js. case_run; simpl; (split; [lia|]);
      (split;
       [ intros H;
         first [ congruence
               | right; eexists; reflexivity
               | left; eexists; reflexivity ]
       | intros [[t H] | [d H]]; discriminate ]).
  - unfold_js. case_run; simpl; (split; [lia|]);
      (split;
       [ intros H; first [congruence | eexists; reflexivity]
       | intros [d H]; discriminate ]).
Qed.

Lemma errors_logged_witness :
  response_of (Strict.post_chat (upstream (Some "sk-test") (Normal rate_limited))
                 (chat_request hello))
  = Some (upstream_error "rate limited") /\
  logs_of (Strict.post_chat (upstream (Some "sk-test") (Normal rate_limited))
             (chat_request hello))
  <> [].
Proof.
  split; [reflexivity|].
  apply (proj2 (proj2 (proj1 (errors_logged
                                (upstream (Some "sk-test") (Normal rate_limited))
                                (chat_request hello))))).
  left. exists "rate limited". reflexivity.
Defined.

(** X3: what the log line holds.  When the [try] block throws [e],
    server.js logs ["Server error:", e] and part_000 logs [e]; when
    server.js answers a non-success upstream status it logs
    ["OpenAI API error:", status, body text], after the upstream call. *)
Theorem log_line_contents (rt : runtime) (req : request) :
  (forall e, outcome_of (Strict.try_block rt req) = Throw e ->
             logs_of (Strict.post_chat rt req) = [[LVal (JStr "Server error:"); LErr e]]) /\
  (forall e, outcome_of (Loose.try_block rt req) = Throw e ->
             logs_of (Loose.post_chat rt req) = [[LErr e]]) /\
  (forall msgs resp t,
      has_messages req (JArr msgs) ->
      env_truthy (OPENAI_API_KEY rt) = true ->
      fetch rt (Strict.upstream_request (OPENAI_API_KEY rt) (JArr msgs)) = Normal resp ->
      ok resp = false ->
      text resp = Normal t ->
      trace (snd (Strict.post_chat rt req init))
      = [EFetch (Strict.upstream_request (OPENAI_API_KEY rt) (JArr msgs));
         ELog [LVal (JStr "OpenAI API error:");
               LVal (JNum (inject_Z (status resp)));
               LVal (JStr t)]]).
Proof.
  split; [|split].
  - unfold_js. case_run; simpl; intros e0 H; try discriminate;
      injection H as <-; reflexivity.
  - unfold_js. case_run; simpl; intros e0 H; try discriminate;
      injection H as <-; reflexivity.
  - intros msgs resp t [Hn Hg] Hkey Hfetch Hok Htext.
    unfold_js. rewrite Hn, Hg. simpl. rewrite Hkey. simpl.
    rewrite Hfetch, Hok. simpl. rewrite Htext. reflexivity.
Qed.

Lemma log_line_contents_witness :
  outcome_of (Strict.try_block (upstream (Some "sk-test") (Throw offline)) (chat_request hello))
  = Throw offline /\
  logs_of (Strict.post_chat (upstream (Some "sk-test") (Throw offline)) (chat_request hello))
  = [[LVal (JStr "Server error:"); LErr offline]] /\
  trace (snd (Strict.post_chat (upstream (Some "sk-test") (Normal rate_limited))
                (chat_request hello) init))
  = [EFetch (Strict.upstream_request (Some "sk-test") hello);
     ELog [LVal (JStr "OpenAI API error:"); LVal (JNum (inject_Z 429));
           LVal (JStr "rate limited")]].
Proof.
  assert (Hm : has_messages (chat_request hello) hello) by (split; reflexivity).
  split; [reflexivity|]. split.
  - exact (proj1 (log_line_contents (upstream (Some "sk-test") (Throw offline))
                    (chat_request hello)) offline eq_refl).
  - exact (proj2 (proj2 (log_line_contents (upstream (Some "sk-test") (Normal rate_limited))
                           (chat_request hello)))
                 [JObj [("role", JStr "user"); ("content", JStr "hi")]]
                 rate_limited "rate limited" Hm eq_refl eq_refl eq_refl eq_refl).
Defined.

(** X4: once a request reaches the POST /chat handler, the handler of
    server.js sends 200, 400, 500 or 502 only, the handler of part_000
    200, 400 or 500 only, so never 502.  What [express.json()] or [cors()]
    answer before the handler runs (a body that is too large or is not
    JSON) is not the handler's and is not counted here. *)
Theorem status_codes (rt : runtime) (req : request) (r : http_response) :
  (response_of (Strict.post_chat rt req) = Some r -> In (code r) strict_codes) /\
  (response_of (Loose.post_chat rt req) = Some r -> In (code r) loose_codes).
Proof.
  unfold strict_codes, loose_codes. split.
  - unfold_js. case_run; simpl; intros [= <-]; simpl; tauto.
  - unfold_js. case_run; simpl; intros [= <-]; simpl; tauto.
Qed.

Lemma status_codes_witness :
  response_of (Loose.post_chat (upstream (Some "sk-test") (Normal rate_limited))
                 (chat_request hello))
  = Some (server_error
            ("invalid json response body at https://api.openai.com/v1/chat/completions"
             ++ " reason: Unexpected token r in JSON at position 0")) /\
  In 500 loose_codes.
Proof.
  split; [reflexivity|].
  exact (proj2 (status_codes (upstream (Some "sk-test") (Normal rate_limited))
                  (chat_request hello)
                  (server_error
            ("invalid json response body at https://api.openai.com/v1/chat/completions"
             ++ " reason: Unexpected token r in JSON at position 0"))) eq_refl).
Defined.

(** X5: the answer 400 is given exactly on failed validation: by
    server.js when [messages] is not an array, by part_000 when it is
    falsy; and server.js gives the missing-credential answer exactly when
    [messages] is an array and the credential is unset or empty. *)
Theorem validation_decides_400 (rt : runtime) (req : request) (m : jsval) :
  has_messages req m ->
  (response_of (Strict.post_chat rt req) = Some messages_missing <-> Array_isArray m = false) /\
  (response_of (Loose.post_chat rt req) = Some messages_missing <-> truthy m = false) /\
  (response_of (Strict.post_chat rt req) = Some missing_credential <->
   Array_isArray m = true /\ env_truthy (OPENAI_API_KEY rt) = false).
Proof.
  intros [Hn Hg]. split; [|split].
  - unfold_js. rewrite Hn, Hg. simpl.
    destruct m; simpl; rewrite ?orb_true_r; simpl;
      try (split; [reflexivity | intros _; reflexivity]).
    split; [|discriminate]. case_run; simpl; discriminate.
  - unfold_js. rewrite Hn, Hg. simpl.
    destruct (truthy m); simpl.
    + split; [|discriminate]. case_run; simpl; discriminate.
    + split; reflexivity.
  - unfold_js. rewrite Hn, Hg. simpl.
    destruct m; simpl; rewrite ?orb_true_r; simpl;
      try (split; [discriminate | intros [H _]; discriminate]).
    destruct (env_truthy (OPENAI_API_KEY rt)); simpl.
    + split; [|intros [_ H]; discriminate]. case_run; simpl; discriminate.
    + split; [intros _; split; reflexivity | reflexivity].
Qed.

Lemma validation_decides_400_witness :
  has_messages (chat_request (JObj [])) (JObj []) /\
  response_of (Strict.post_chat (upstream (Some "sk-test") (Throw offline))
                 (chat_request (JObj [])))
  = Some messages_missing /\
  response_of (Loose.post_chat (upstream (Some "sk-test") (Throw offline))
                 (chat_request (JObj [])))
  <> Some messages_missing.
Proof.
  assert (Hm : has_messages (chat_request (JObj [])) (JObj [])) by (split; reflexivity).
  destruct (validation_decides_400 (upstream (Some "sk-test") (Throw offline))
              (chat_request (JObj [])) (JObj []) Hm) as (Hs & Hl & _).
  split; [exact Hm|]. split.
  - apply Hs. reflexivity.
  - intros H. apply Hl in H. discriminate H.
Defined.

(** X6: which parts of the upstream response decide the answer.
    part_000 reads the parsed body only: two responses that parse alike
    are answered alike, whatever their status and text, so a failure
    status with a JSON body is answered like a success.  server.js reads
    the parsed body of a success status and the text of a non-success
    status, and nothing else. *)
Theorem upstream_fields_read (k : option string) (req : request) (r1 r2 : upstream_response) :
  (json r1 = json r2 ->
   response_of (Loose.post_chat (upstream k (Normal r1)) req)
   = response_of (Loose.post_chat (upstream k (Normal r2)) req)) /\
  (ok r1 = true -> ok r2 = true -> json r1 = json r2 ->
   response_of (Strict.post_chat (upstream k (Normal r1)) req)
   = response_of (Strict.post_chat (upstream k (Normal r2)) req)) /\
  (ok r1 = false -> ok r2 = false -> text r1 = text r2 ->
   response_of (Strict.post_chat (upstream k (Normal r1)) req)
   = response_of (Strict.post_chat (upstream k (Normal r2)) req)).
Proof.
  split; [|split].
  - intros Hj. unfold_js. simpl. rewrite Hj. reflexivity.
  - intros H1 H2 Hj. unfold_js. simpl. rewrite H1, H2, Hj. reflexivity.
  - intros H1 H2 Ht. unfold_js. simpl. rewrite H1, H2, Ht. simpl.
    case_run; reflexivity.
Qed.

Lemma upstream_fields_read_witness :
  json unauthorized = json (mkResp 200 (Normal "ok") (json unauthorized)) /\
  response_of (Loose.post_chat (upstream (Some "sk-test") (Normal unauthorized))
                 (chat_request hello))
  = response_of (Loose.post_chat
                   (upstream (Some "sk-test")
                      (Normal (mkResp 200 (Normal "ok") (json unauthorized))))
                   (chat_request hello)).
Proof.
  split; [reflexivity|].
  exact (proj1 (upstream_fields_read (Some "sk-test") (chat_request hello) unauthorized
                  (mkResp 200 (Normal "ok") (json unauthorized))) eq_refl).
Defined.

(** X7: on a 200 answer the POST /chat handler hands [res.json] an
    object [{reply: v}] whose [v] is never [undefined] or [null] in
    server.js and always truthy in part_000.  So the body the caller reads
    always has the [reply] key, and its value is [null] only when [v] is an
    infinity (a content such as [1e400]), which the serialiser writes as
    [null]; never because the content was missing. *)
Theorem reply_always_present (rt : runtime) (req : request) (r : http_response) :
  code r = 200 ->
  (response_of (Strict.post_chat rt req) = Some r ->
   exists v, payload r = BodyJson (JObj [("reply", v)]) /\
             nullish v = false /\
             on_wire (JObj [("reply", v)]) = JObj [("reply", on_wire v)] /\
             (on_wire v = JNull <-> exists negative, v = JInfinity negative)) /\
  (response_of (Loose.post_chat rt req) = Some r ->
   exists v, payload r = BodyJson (JObj [("reply", v)]) /\
             truthy v = true /\
             on_wire (JObj [("reply", v)]) = JObj [("reply", on_wire v)] /\
             (on_wire v = JNull <-> exists negative, v = JInfinity negative)).
Proof.
  assert (Hwire : forall v, nullish v = false ->
                            on_wire (JObj [("reply", v)]) = JObj [("reply", on_wire v)] /\
                            (on_wire v = JNull <-> exists negative, v = JInfinity negative)).
  { intros v Hv. destruct v as [| |b|q|neg|s0|xs|fs]; try discriminate Hv; simpl;
      (split; [reflexivity|]);
      (split;
       [ intros H; try discriminate H; eauto
       | intros [n H]; try discriminate H; reflexivity ]). }
  assert (Htruthy : forall v, truthy v = true -> nullish v = false).
  { intros v. destruct v; simpl; congruence. }
  intros Hc. split.
  - unfold_js. case_run; simpl; intros [= <-]; try discriminate Hc;
      eexists; (split; [reflexivity|]);
      match goal with
      | |- nullish (coalesce ?x ?y) = false /\ _ =>
          assert (Hv : nullish (coalesce x y) = false)
            by (unfold coalesce; destruct (nullish x) eqn:E; [reflexivity | exact E]);
          split; [exact Hv | exact (Hwire _ Hv)]
      end.
  - unfold_js. case_run; simpl; intros [= <-]; try discriminate Hc;
      eexists; (split; [reflexivity|]);
      match goal with
      | |- truthy (logical_or ?x ?y) = true /\ _ =>
          assert (Hv : truthy (logical_or x y) = true)
            by (unfold logical_or; destruct (truthy x) eqn:E; [exact E | reflexivity]);
          split; [exact Hv | exact (Hwire _ (Htruthy _ Hv))]
      end.
Qed.

Lemma reply_always_present_witness :
  code (reply_ok (JInfinity false)) = 200 /\
  response_of (Strict.post_chat
                 (upstream (Some "sk-test") (Normal (completed (JInfinity false))))
                 (chat_request hello))
  = Some (reply_ok (JInfinity false)) /\
  exists v, payload (reply_ok (JInfinity false)) = BodyJson (JObj [("reply", v)]) /\
            nullish v = false /\
            on_wire (JObj [("reply", v)]) = JObj [("reply", on_wire v)] /\
            (on_wire v = JNull <-> exists negative, v = JInfinity negative).
Proof.
  split; [reflexivity|]. split; [reflexivity|].
  exact (proj1 (reply_always_present
                  (upstream (Some "sk-test") (Normal (completed (JInfinity false))))
                  (chat_request hello) (reply_ok (JInfinity false)) eq_refl) eq_refl).
Defined.

(** X8: which value the handler hands [res.json] as [reply], for every
    parsed body that is not [null].  server.js hands over the first
    choice's message content whenever it is not [undefined] or [null],
    whatever its type (so [""], [0], [false] and an infinity too), and
    "No reply generated" otherwise; part_000 hands it over whenever it is
    truthy and "No reply" otherwise.  What the caller reads is that value
    as the serialiser writes it: an infinity arrives as [null]. *)
Theorem reply_selection (rt : runtime) (req : request) (msgs : list jsval)
        (data : jsval) :
  has_messages req (JArr msgs) ->
  env_truthy (OPENAI_API_KEY rt) = true ->
  nullish data = false ->
  (forall resp,
      fetch rt (Strict.upstream_request (OPENAI_API_KEY rt) (JArr msgs)) = Normal resp ->
      ok resp = true ->
      json resp = Normal data ->
      (nullish (first_choice_content data) = false ->
       response_of (Strict.post_chat rt req) = Some (reply_ok (first_choice_content data))) /\
      (nullish (first_choice_content data) = true ->
       response_of (Strict.post_chat rt req) = Some (reply_ok (JStr "No reply generated")))) /\
  (forall resp,
      fetch rt (Loose.upstream_request (OPENAI_API_KEY rt) (JArr msgs)) = Normal resp ->
      json resp = Normal data ->
      (truthy (first_choice_content data) = true ->
       response_of (Loose.post_chat rt req) = Some (reply_ok (first_choice_content data))) /\
      (truthy (first_choice_content data) = false ->
       response_of (Loose.post_chat rt req) = Some (reply_ok (JStr "No reply")))).
Proof.
  intros Hm Hkey Hd. split.
  - intros resp Hfetch Hok Hjson.
    rewrite (strict_success rt req msgs resp data Hm Hkey Hfetch Hok Hjson Hd).
    unfold coalesce. split; intros ->; reflexivity.
  - intros resp Hfetch Hjson.
    rewrite (loose_success rt req (JArr msgs) resp data Hm eq_refl Hfetch Hjson).
    unfold logical_or. split; intros ->; reflexivity.
Qed.

Lemma reply_selection_witness :
  has_messages (chat_request hello) hello /\
  nullish (completion (JNum (0 # 1))) = false /\
  response_of (Strict.post_chat
                 (upstream (Some "sk-test") (Normal (completed (JNum (0 # 1)))))
                 (chat_request hello))
  = Some (reply_ok (JNum (0 # 1))) /\
  response_of (Loose.post_chat
                 (upstream (Some "sk-test") (Normal (completed (JNum (0 # 1)))))
                 (chat_request hello))
  = Some (reply_ok (JStr "No reply")) /\
  response_of (Strict.post_chat
                 (upstream (Some "sk-test") (Normal (completed (JInfinity false))))
                 (chat_request hello))
  = Some (reply_ok (JInfinity false)) /\
  response_of (Loose.post_chat
                 (upstream (Some "sk-test") (Normal (completed (JInfinity false))))
                 (chat_request hello))
  = Some (reply_ok (JInfinity false)) /\
  on_wire (JObj [("reply", JInfinity false)]) = JObj [("reply", JNull)].
Proof.
  assert (Hm : has_messages (chat_request hello) hello) by (split; reflexivity).
  destruct (reply_selection
              (upstream (Some "sk-test") (Normal (completed (JNum (0 # 1)))))
              (chat_request hello)
              [JObj [("role", JStr "user"); ("content", JStr "hi")]]
              (completion (JNum (0 # 1))) Hm eq_refl eq_refl) as [Hs Hl].
  destruct (reply_selection
              (upstream (Some "sk-test") (Normal (completed (JInfinity false))))
              (chat_request hello)
              [JObj [("role", JStr "user"); ("content", JStr "hi")]]
              (completion (JInfinity false)) Hm eq_refl eq_refl) as [Hsi Hli].
  split; [exact Hm|]. split; [reflexivity|].
  split; [|split; [|split; [|split]]].
  - exact (proj1 (Hs (completed (JNum (0 # 1))) eq_refl eq_refl eq_refl) eq_refl).
  - exact (proj2 (Hl (completed (JNum (0 # 1))) eq_refl eq_refl) eq_refl).
  - exact (proj1 (Hsi (completed (JInfinity false)) eq_refl eq_refl eq_refl) eq_refl).
  - exact (proj1 (Hli (completed (JInfinity false)) eq_refl eq_refl) eq_refl).
  - reflexivity.
Defined.

(** X9: a successful upstream response whose body parses to [null] is
    answered 500 "Server error" by server.js, which reads [data.choices]
    unguarded, and 200 [{reply: "No reply"}] by part_000, which guards
    the read with [?.]. *)
Theorem null_body_answers (rt : runtime) (req : request) (msgs : list jsval) :
  has_messages req (JArr msgs) ->
  env_truthy (OPENAI_API_KEY rt) = true ->
  (forall resp,
      fetch rt (Strict.upstream_request (OPENAI_API_KEY rt) (JArr msgs)) = Normal resp ->
      ok resp = true ->
      json resp = Normal JNull ->
      exists d, response_of (Strict.post_chat rt req) = Some (server_error d) /\
                mentions "choices" d = true) /\
  (forall resp,
      fetch rt (Loose.upstream_request (OPENAI_API_KEY rt) (JArr msgs)) = Normal resp ->
      json resp = Normal JNull ->
      response_of (Loose.post_chat rt req) = Some (reply_ok (JStr "No reply"))).
Proof.
  intros [Hn Hg] Hkey. split.
  - intros resp Hfetch Hok Hjson. eexists.
    unfold_js. rewrite Hn, Hg. simpl. rewrite Hkey. simpl.
    rewrite Hfetch, Hok. simpl. rewrite Hjson. simpl. split; reflexivity.
  - intros resp Hfetch Hjson.
    exact (loose_success rt req (JArr msgs) resp JNull (conj Hn Hg) eq_refl Hfetch Hjson).
Qed.

Lemma null_body_answers_witness :
  has_messages (chat_request hello) hello /\
  (exists d,
      response_of (Strict.post_chat
                     (upstream (Some "sk-test")
                        (Normal (mkResp 200 (Normal "null") (Normal JNull))))
                     (chat_request hello))
      = Some (server_error d) /\ mentions "choices" d = true).
Proof.
  assert (Hm : has_messages (chat_request hello) hello) by (split; reflexivity).
  split; [exact Hm|].
  exact (proj1 (null_body_answers
                  (upstream (Some "sk-test")
                     (Normal (mkResp 200 (Normal "null") (Normal JNull))))
                  (chat_request hello)
                  [JObj [("role", JStr "user"); ("content", JStr "hi")]] Hm eq_refl)
               (mkResp 200 (Normal "null") (Normal JNull)) eq_refl eq_refl eq_refl).
Defined.

(** X10: the [console.error] lines of a POST /chat run never hold the
    credential: two runs that differ only in the credential's value (both
    set, or both unset or empty) and see the upstream settle alike write
    the same lines. *)
Theorem credential_not_logged (k1 k2 : option string) (o : result upstream_response)
        (req : request) :
  env_truthy k1 = env_truthy k2 ->
  logs_of (Strict.post_chat (upstream k1 o) req)
  = logs_of (Strict.post_chat (upstream k2 o) req) /\
  logs_of (Loose.post_chat (upstream k1 o) req)
  = logs_of (Loose.post_chat (upstream k2 o) req).
Proof.
  intros Hk. split.
  - unfold_js. simpl. rewrite Hk. case_run; reflexivity.
  - unfold_js. simpl. case_run; reflexivity.
Qed.

Lemma credential_not_logged_witness :
  env_truthy (Some "sk-live-1") = env_truthy (Some "sk-live-2") /\
  logs_of (Strict.post_chat (upstream (Some "sk-live-1") (Normal rate_limited))
             (chat_request hello))
  = logs_of (Strict.post_chat (upstream (Some "sk-live-2") (Normal rate_limited))
               (chat_request hello)).
Proof.
  split; [reflexivity|].
  exact (proj1 (credential_not_logged (Some "sk-live-1") (Some "sk-live-2")
                  (Normal rate_limited) (chat_request hello) eq_refl)).
Defined.

(** X11: nothing of the caller's conversation comes back or is logged:
    two requests that both pass validation (array [messages] for
    server.js, truthy [messages] for part_000) get the same response and
    the same log lines when the upstream settles alike. *)
Theorem conversation_not_echoed (k : option string) (o : result upstream_response)
        (req1 req2 : request) (m1 m2 : jsval) :
  has_messages req1 m1 ->
  has_messages req2 m2 ->
  (Array_isArray m1 = true -> Array_isArray m2 = true ->
   response_of (Strict.post_chat (upstream k o) req1)
   = response_of (Strict.post_chat (upstream k o) req2) /\
   logs_of (Strict.post_chat (upstream k o) req1)
   = logs_of (Strict.post_chat (upstream k o) req2)) /\
  (truthy m1 = true -> truthy m2 = true ->
   response_of (Loose.post_chat (upstream k o) req1)
   = response_of (Loose.post_chat (upstream k o) req2) /\
   logs_of (Loose.post_chat (upstream k o) req1)
   = logs_of (Loose.post_chat (upstream k o) req2)).
Proof.
  intros [Hn1 Hg1] [Hn2 Hg2]. split.
  - intros Ha1 Ha2. destruct m1; try discriminate Ha1. destruct m2; try discriminate Ha2.
    unfold_js. rewrite Hn1, Hg1, Hn2, Hg2. simpl. split; case_run; reflexivity.
  - intros Ht1 Ht2.
    unfold_js. rewrite Hn1, Hg1, Hn2, Hg2. simpl. rewrite Ht1, Ht2. simpl.
    split; case_run; reflexivity.
Qed.

Lemma conversation_not_echoed_witness :
  has_messages (chat_request hello) hello /\
  has_messages (chat_request (JArr [])) (JArr []) /\
  response_of (Strict.post_chat (upstream (Some "sk-test") (Normal (completed (JStr "Hello!"))))
                 (chat_request hello))
  = response_of (Strict.post_chat
                   (upstream (Some "sk-test") (Normal (completed (JStr "Hello!"))))
                   (chat_request (JArr []))).
Proof.
  assert (H1 : has_messages (chat_request hello) hello) by (split; reflexivity).
  assert (H2 : has_messages (chat_request (JArr [])) (JArr [])) by (split; reflexivity).
  split; [exact H1|]. split; [exact H2|].
  exact (proj1 (proj1 (conversation_not_echoed (Some "sk-test")
                         (Normal (completed (JStr "Hello!")))
                         (chat_request hello) (chat_request (JArr []))
                         hello (JArr []) H1 H2) eq_refl eq_refl)).
Defined.

(** X12: the listening port.  With PORT unset or empty server.js
    listens on 10000 and part_000 on 3000, and the start-up line names
    that number; with PORT set to a non-empty string both pass that string
    to [listen] and print it as it is. *)
Theorem listening_port (env_PORT : option string) :
  (env_truthy env_PORT = false ->
   Strict.PORT env_PORT = PortNumber 10000 /\
   Strict.listening_line env_PORT = "Server running on port 10000" /\
   Loose.port env_PORT = PortNumber 3000 /\
   Loose.listening_line env_PORT = "Server running on port 3000") /\
  (forall s, env_PORT = Some s -> s <> "" ->
   Strict.PORT env_PORT = PortString s /\
   Strict.listening_line env_PORT = "Server running on port " ++ s /\
   Loose.port env_PORT = PortString s /\
   Loose.listening_line env_PORT = "Server running on port " ++ s).
Proof.
  split.
  - destruct env_PORT as [s|]; unfold env_truthy; [|repeat split].
    destruct (String.eqb_spec s ""); [subst; repeat split | discriminate].
  - intros s -> Hs.
    unfold Strict.listening_line, Loose.listening_line, Strict.PORT, Loose.port,
      env_or_default.
    destruct (String.eqb_spec s ""); [contradiction | repeat split].
Qed.

Lemma listening_port_witness :
  env_truthy (Some "") = false /\
  Strict.listening_line (Some "") = "Server running on port 10000" /\
  Loose.listening_line (Some "8080") = "Server running on port 8080".
Proof.
  split; [reflexivity|]. split.
  - exact (proj1 (proj2 (proj1 (listening_port (Some "")) eq_refl))).
  - refine (proj2 (proj2 (proj2 (proj2 (listening_port (Some "8080")) "8080" eq_refl _)))).
    discriminate.
Defined.

(** X13: server.js never calls the upstream without a credential: the
    bearer token of every call it makes is the non-empty value of
    OPENAI_API_KEY.  part_000 makes its call also when the variable is
    unset or empty, with the token text "undefined" or no token text. *)
Theorem bearer_token_sent (rt : runtime) (req : request) :
  (forall rq, In rq (calls_of (Strict.post_chat rt req)) ->
              exists k, OPENAI_API_KEY rt = Some k /\ k <> "" /\
                        In ("Authorization", "Bearer " ++ k) (headers rq)) /\
  (forall m, has_messages req m -> truthy m = true ->
             env_truthy (OPENAI_API_KEY rt) = false ->
             map headers (calls_of (Loose.post_chat rt req))
             = [[("Content-Type", "application/json"); ("Authorization", "Bearer undefined")]]
             \/
             map headers (calls_of (Loose.post_chat rt req))
             = [[("Content-Type", "application/json"); ("Authorization", "Bearer ")]]).
Proof.
  split.
  - intros rq. unfold_js.
    destruct (nullish (req_body req)) eqn:Hn; simpl; [intros []|].
    destruct (get_own (req_body req) (KName "messages")) eqn:Hg;
      simpl; rewrite ?orb_true_r; simpl; try (intros []; fail).
    destruct (OPENAI_API_KEY rt) as [k|] eqn:Hk; simpl; [|intros []].
    destruct (String.eqb_spec k ""); simpl; [intros []|].
    intros Hin. exists k. split; [reflexivity|]. split; [assumption|].
    revert Hin. case_run; simpl; intros [<- | []]; simpl; auto.
  - intros m [Hn Hg] Ht Hk. unfold_js. rewrite Hn, Hg. simpl. rewrite Ht. simpl.
    destruct (OPENAI_API_KEY rt) as [k|]; simpl in *.
    + unfold env_truthy in Hk. destruct (String.eqb_spec k ""); [subst|discriminate].
      right. case_run; reflexivity.
    + left. case_run; reflexivity.
Qed.

Lemma bearer_token_sent_witness :
  In (Strict.upstream_request (Some "sk-test") hello)
     (calls_of (Strict.post_chat (upstream (Some "sk-test") (Throw offline))
                  (chat_request hello))) /\
  exists k, OPENAI_API_KEY (upstream (Some "sk-test") (Throw offline)) = Some k /\ k <> "" /\
            In ("Authorization", "Bearer " ++ k)
               (headers (Strict.upstream_request (Some "sk-test") hello)).
Proof.
  assert (Hin : In (Strict.upstream_request (Some "sk-test") hello)
                   (calls_of (Strict.post_chat (upstream (Some "sk-test") (Throw offline))
                                (chat_request hello)))) by (left; reflexivity).
  split; [exact Hin|].
  exact (proj1 (bearer_token_sent (upstream (Some "sk-test") (Throw offline))
                  (chat_request hello))
               (Strict.upstream_request (Some "sk-test") hello) Hin).
Defined.
